(** * Research session orchestration of gradio_app.py

    A shallow embedding of [get_models_for_provider], [update_models] and
    [conduct_research] (src/gradio_app.py), with the effects the code has:
    writes to [os.environ], progress callbacks, log records, file reads and
    the single call of the external research engine. *)

From Stdlib Require Import ZArith QArith String Ascii DecimalString Sorted.
From stdpp Require Import base option list gmap.

#[local] Set Warnings "-register-all".
Local Open Scope Z_scope.
Local Open Scope list_scope.

(** ** Python text

    A Python [str] is a sequence of Unicode code points.  The model keeps a
    code point as an [N] and a [str] as the list of its code points; strings
    are taken to hold Unicode scalar values, which the UTF-8 file system
    encoding of [os.environ] can always encode. *)

Abbreviation pystr := (list N).

(** An ASCII literal of the source, as code points. *)
Definition lit (s : string) : pystr := N_of_ascii <$> list_ascii_of_string s.
Arguments lit : simpl never.

(** [str.isspace] of one character: the white space table of CPython
    ([_PyUnicode_IsWhitespace]). *)
Definition py_isspace (c : N) : bool :=
  ((0x9 <=? c) && (c <=? 0xD) || (0x1C <=? c) && (c <=? 0x20)
   || (c =? 0x85) || (c =? 0xA0) || (c =? 0x1680)
   || (0x2000 <=? c) && (c <=? 0x200A)
   || (c =? 0x2028) || (c =? 0x2029) || (c =? 0x202F) || (c =? 0x205F)
   || (c =? 0x3000))%N.

Fixpoint py_lstrip (s : pystr) : pystr :=
  match s with
  | c :: r => if py_isspace c then py_lstrip r else s
  | [] => []
  end.

(** [s.strip()]: white space removed at both ends. *)
Definition py_strip (s : pystr) : pystr :=
  reverse (py_lstrip (reverse (py_lstrip s))).

(** [s1.join(parts)]. *)
Fixpoint py_join (sep : pystr) (parts : list pystr) : pystr :=
  match parts with
  | [] => []
  | [p] => p
  | p :: rest => p ++ sep ++ py_join sep rest
  end.

(** [str(n)] of an [int]: decimal digits, with a minus sign below zero. *)
Definition py_str_int (z : Z) : pystr :=
  lit (NilZero.string_of_int (Z.to_int z)).

Arguments py_str_int : simpl never.

(** [os.path.basename] (posixpath): what follows the last slash. *)
Definition basename (p : pystr) : pystr :=
  foldl (fun acc c => if (c =? 47)%N then [] else acc ++ [c]) [] p.
Arguments basename : simpl never.

(** ** Python values

    The engine's result is loosely structured: the values the model covers
    are [None], [bool], [int], [str], [list] and [dict] with [str] keys (a
    dict is kept as its items in insertion order, keys distinct). *)

Inductive pyval : Type :=
  | VNone
  | VBool (b : bool)
  | VInt (z : Z)
  | VStr (s : pystr)
  | VList (items : list pyval)
  | VDict (entries : list (pystr * pyval)).

(** [type(v).__name__]. *)
Definition py_type_name (v : pyval) : pystr :=
  match v with
  | VNone => lit "NoneType"
  | VBool _ => lit "bool"
  | VInt _ => lit "int"
  | VStr _ => lit "str"
  | VList _ => lit "list"
  | VDict _ => lit "dict"
  end.

(** [bool(v)]. *)
Definition py_truthy (v : pyval) : bool :=
  match v with
  | VNone => false
  | VBool b => b
  | VInt z => negb (z =? 0)
  | VStr s => negb (bool_decide (s = []))
  | VList items => match items with [] => false | _ => true end
  | VDict entries => match entries with [] => false | _ => true end
  end.

(** ** Exceptions

    A handler [except Exception] catches the instances of [Exception] and
    lets the other instances of [BaseException] through. *)

Inductive pyclass : Type :=
  | TypeError
  | AttributeError
  | ValueError
  | IndexError
  | OSError
  | UnicodeDecodeError
  | OtherException (class_name : string)
  | KeyboardInterrupt
  | SystemExit
  | GeneratorExit
  | CancelledError
  | OtherBaseException (class_name : string).

Definition derives_Exception (c : pyclass) : bool :=
  match c with
  | KeyboardInterrupt | SystemExit | GeneratorExit | CancelledError
  | OtherBaseException _ => false
  | _ => true
  end.

(** A raised exception: its class and [str(e)]. *)
Record pyexc : Type := { exc_class : pyclass; exc_str : pystr }.

Inductive outcome (A : Type) : Type :=
  | Returned (a : A)
  | Raised (e : pyexc).
Arguments Returned {A} a.
Arguments Raised {A} e.

#[global] Instance outcome_ret : MRet outcome := fun A a => Returned a.

#[global] Instance outcome_bind : MBind outcome :=
  fun A B f o =>
    match o with
    | Returned a => f a
    | Raised e => Raised e
    end.

Section Rendering.
(** [repr] of a [str] (quotes and escapes) depends on the interpreter's
    tables of printable characters; it is left open. *)
Variable repr_str : pystr -> pystr.

Fixpoint py_repr (v : pyval) : pystr :=
  match v with
  | VNone => lit "None"
  | VBool b => if b then lit "True" else lit "False"
  | VInt z => py_str_int z
  | VStr s => repr_str s
  | VList items =>
      lit "[" ++ py_join (lit ", ") (map py_repr items) ++ lit "]"
  | VDict entries =>
      lit "{"
      ++ py_join (lit ", ")
           (map (fun kv => repr_str (fst kv) ++ lit ": " ++ py_repr (snd kv))
              entries)
      ++ lit "}"
  end.

(** [str(v)], which is also what an f-string field [{v}] renders. *)
Definition py_str (v : pyval) : pystr :=
  match v with
  | VStr s => s
  | _ => py_repr v
  end.
End Rendering.

(** [for x in v]: the items a loop over [v] visits, or the [TypeError]. *)
Definition py_iter (v : pyval) : outcome (list pyval) :=
  match v with
  | VStr s => Returned ((fun c => VStr [c]) <$> s)
  | VList items => Returned items
  | VDict entries => Returned ((fun kv => VStr (fst kv)) <$> entries)
  | _ => Raised {| exc_class := TypeError;
                   exc_str := lit "'" ++ py_type_name v
                              ++ lit "' object is not iterable" |}
  end.

(** [d.get(key, default)] on association data: the first entry of the key. *)
Fixpoint dict_get {V : Type} (entries : list (pystr * V)) (key : pystr)
    (default : V) : V :=
  match entries with
  | [] => default
  | (k, v) :: rest => if bool_decide (k = key) then v else dict_get rest key default
  end.

(** [v.get(key, default)]: only a [dict] has the method. *)
Definition py_get (v : pyval) (key : pystr) (default : pyval) : outcome pyval :=
  match v with
  | VDict entries => Returned (dict_get entries key default)
  | _ => Raised {| exc_class := AttributeError;
                   exc_str := lit "'" ++ py_type_name v
                              ++ lit "' object has no attribute 'get'" |}
  end.

(** ** The provider catalog *)

Definition PROVIDERS : list (pystr * list pystr) :=
  [ (lit "openai",
      [lit "o4-mini"; lit "o4-mini-high"; lit "o3-mini";
       lit "o3-mini-reasoning"; lit "gpt-4o"]);
    (lit "anthropic",
      [lit "claude-sonnet-4"; lit "claude-sonnet-4-thinking";
       lit "claude-3-7-sonnet"; lit "claude-3-7-sonnet-thinking"]);
    (lit "google",
      [lit "gemini-2.5-pro"; lit "gemini-1.5-pro-latest";
       lit "gemini-1.5-flash-latest"]);
    (lit "groq",
      [lit "deepseek-r1-distill-llama-70b"; lit "llama-3.3-70b-versatile";
       lit "llama3-70b-8192"]);
    (lit "sambanova", [lit "DeepSeek-V3-0324"]) ].

Definition get_models_for_provider (provider : pystr) : list pystr :=
  dict_get PROVIDERS provider [lit "default"].

(** What [update_models] hands back: the arguments of [gr.Dropdown]. *)
Record Dropdown : Type := { choices : list pystr; value : pystr }.

(** [models[0]] raises [IndexError] on an empty list. *)
Definition update_models (provider : pystr) : outcome Dropdown :=
  let models := get_models_for_provider provider in
  match models !! 0%nat with
  | Some first => Returned {| choices := models; value := first |}
  | None => Raised {| exc_class := IndexError;
                      exc_str := lit "list index out of range" |}
  end.

(** ** The state a request runs in *)

Inductive log_level : Type := INFO | WARNING | ERROR.

(** The keyword arguments of [ResearchService.conduct_research]. *)
Record engine_kwargs : Type := {
  kw_query : pystr;
  kw_extra_effort : bool;
  kw_minimum_effort : bool;
  kw_provider : pystr;
  kw_model : pystr;
  kw_streaming : bool;
  kw_uploaded_data_content : option pystr;
  kw_steering_enabled : bool
}.

(** Modelled from the spec: the [ResearchRequest] class (models/research.py
    is not among the sources): an immutable value holding the keyword
    arguments it is built from; building it has no effect. *)
Record ResearchRequest : Type := {
  req_query : pystr;
  req_extra_effort : bool;
  req_minimum_effort : bool;
  req_streaming : bool;
  req_provider : pystr;
  req_model : pystr;
  req_uploaded_data_content : option pystr;
  req_steering_enabled : bool
}.

(** The process-wide state and the request's observable effects:
    [os.environ], the calls of the [progress] tracker, the records handed
    to [logger], and the calls of the engine, each with the environment
    it ran in.  A fraction is kept as the rational its decimal literal
    denotes; rounding to a float keeps the order of 0.1, 0.2, 0.3, 1.0. *)
Record world : Type := {
  environ : gmap pystr pystr;
  progress_calls : list (Q * pystr);
  log_records : list (log_level * pystr);
  engine_calls : list (gmap pystr pystr * engine_kwargs)
}.

(** A computation on the world that returns or raises; the world survives
    a raise, as effects made before an exception stay made. *)
Definition action (A : Type) : Type := world -> outcome A * world.

#[global] Instance action_ret : MRet action :=
  fun A a w => (Returned a, w).

#[global] Instance action_bind : MBind action :=
  fun A B f m w =>
    match m w with
    | (Returned a, w') => f a w'
    | (Raised e, w') => (Raised e, w')
    end.

#[global] Instance action_throw : MThrow pyexc action :=
  fun A e w => (Raised e, w).

(** A pure step that may raise. *)
Definition lift {A : Type} (o : outcome A) : action A := fun w => (o, w).

(** [try: body  except Exception as e: handler e]. *)
Definition try_except_Exception {A : Type} (body : action A)
    (handler : pyexc -> action A) : action A :=
  fun w =>
    match body w with
    | (Raised e, w') =>
        if derives_Exception (exc_class e) then handler e w'
        else (Raised e, w')
    | r => r
    end.

(** [progress(fraction, desc=...)]. *)
Definition progress (fraction : Q) (desc : pystr) : action unit :=
  fun w =>
    (Returned tt,
     {| environ := environ w;
        progress_calls := progress_calls w ++ [(fraction, desc)];
        log_records := log_records w;
        engine_calls := engine_calls w |}).

(** [logger.info], [logger.warning], [logger.error]. *)
Definition logger (level : log_level) (message : pystr) : action unit :=
  fun w =>
    (Returned tt,
     {| environ := environ w;
        progress_calls := progress_calls w;
        log_records := log_records w ++ [(level, message)];
        engine_calls := engine_calls w |}).

(** [os.environ[key] = value]: [putenv] refuses a value with a NUL
    character, before anything is stored. *)
Definition environ_setitem (key value : pystr) : action unit :=
  fun w =>
    if bool_decide (0%N ∈ value)
    then (Raised {| exc_class := ValueError;
                    exc_str := lit "embedded null byte" |}, w)
    else
      (Returned tt,
       {| environ := <[key := value]> (environ w);
          progress_calls := progress_calls w;
          log_records := log_records w;
          engine_calls := engine_calls w |}).

(** ** Uploaded files *)

(** An uploaded file as Gradio hands it over: [name] is its path. *)
Record UploadedFile : Type := { name : pystr }.

(** Why [open(path, 'r', encoding='utf-8')] followed by [f.read()]
    failed: the file could not be opened or read ([OSError]), or its bytes
    are not UTF-8 ([UnicodeDecodeError]); each with its message. *)
Inductive read_failure : Type :=
  | Unreadable (reason : pystr)
  | Undecodable (reason : pystr).

Definition failure_reason (f : read_failure) : pystr :=
  match f with
  | Unreadable reason | Undecodable reason => reason
  end.

Definition exception_of_failure (f : read_failure) : pyexc :=
  match f with
  | Unreadable reason => {| exc_class := OSError; exc_str := reason |}
  | Undecodable reason =>
      {| exc_class := UnicodeDecodeError; exc_str := reason |}
  end.

(** The three characters that open the status literals of lines 94 and
    161, and those that open the literal of line 155, as the source file
    has them (U+201A U+00F9 U+00E5, and U+201A U+00FA U+00D6). *)
Definition failure_mark : pystr := [0x201A; 0xF9; 0xE5]%N.
Definition success_mark : pystr := [0x201A; 0xFA; 0xD6]%N.

Arguments failure_mark : simpl never.
Arguments success_mark : simpl never.

Definition str_truthy (s : pystr) : bool := negb (bool_decide (s = [])).

(** Truth value of an optional list: [None] and [[]] are false. *)
Definition list_truthy {A : Type} (l : option (list A)) : bool :=
  match l with
  | Some (_ :: _) => true
  | _ => false
  end.

Section Research.
(** The collaborators the code calls and the sources do not hold. *)

(** [repr] of a [str], see [py_repr]. *)
Variable repr_str : pystr -> pystr.

(** The file system: the text [open] and [read] give for a path, or the
    failure. *)
Variable read_text : pystr -> read_failure + pystr.

(** [ResearchService.conduct_research]: given the environment it runs
    in and its keyword arguments, it returns a value or raises. *)
Variable engine : gmap pystr pystr -> engine_kwargs -> outcome pyval.

Definition open_and_read (path : pystr) : action pystr :=
  match read_text path with
  | inr content => mret content
  | inl f => mthrow (exception_of_failure f)
  end.

(** The loop over [uploaded_files] (lines 105-111); [file_contents] is
    the list built so far. *)
Fixpoint read_uploaded_files (uploaded_files : list UploadedFile)
    (file_contents : list pystr) : action (list pystr) :=
  match uploaded_files with
  | [] => mret file_contents
  | file_path :: rest =>
      file_contents ←
        try_except_Exception
          (content ← open_and_read (name file_path);
           mret (file_contents
                 ++ [lit "=== File: " ++ basename (name file_path)
                     ++ lit " ===" ++ [10%N] ++ content ++ [10%N]]))
          (fun e =>
             logger WARNING
               (lit "Could not read file " ++ name file_path ++ lit ": "
                ++ exc_str e);;
             mret file_contents);
      read_uploaded_files rest file_contents
  end.

(** [await ResearchService.conduct_research(...)]. *)
Definition call_engine (kwargs : engine_kwargs) : action pyval :=
  fun w =>
    (engine (environ w) kwargs,
     {| environ := environ w;
        progress_calls := progress_calls w;
        log_records := log_records w;
        engine_calls := engine_calls w ++ [(environ w, kwargs)] |}).

(** "Extract results" (lines 149-157): from the engine's result to the
    returned triple. *)
Definition extract_results (result : pyval)
    : outcome (pyval * pystr * pystr) :=
  report ← py_get result (lit "running_summary")
             (VStr (lit "No report generated"));
  sources ← py_get result (lit "sources_gathered") (VList []);
  sources_text ←
    (if py_truthy sources
     then items ← py_iter sources;
          mret (py_join [10%N]
                  ((fun source => lit "- " ++ py_str repr_str source)
                     <$> items))
     else mret (lit "No sources gathered"));
  loop_count ← py_get result (lit "research_loop_count") (VInt 0);
  let status :=
    success_mark ++ lit " Research complete! Conducted "
    ++ py_str repr_str loop_count ++ lit " research loops." in
  mret (report, sources_text, status).

Definition conduct_research (query provider model : pystr) (max_loops : Z)
    (extra_effort minimum_effort enable_steering : bool)
    (uploaded_files : option (list UploadedFile))
    : action (pyval * pystr * pystr) :=
  if negb (str_truthy query) || negb (str_truthy (py_strip query)) then
    mret (VStr [], [], failure_mark ++ lit " Please enter a research query")
  else
    try_except_Exception
      (progress 0.1 (lit "Initializing research...");;
       logger INFO (lit "Starting research: " ++ take 50 query ++ lit "...");;
       uploaded_data_content ←
         (if list_truthy uploaded_files then
            progress 0.2 (lit "Processing uploaded files...");;
            file_contents ←
              read_uploaded_files (default [] uploaded_files) [];
            mret (if list_truthy (Some file_contents)
                  then Some (py_join [10%N; 10%N] file_contents)
                  else None)
          else mret None);
       environ_setitem (lit "LLM_PROVIDER") provider;;
       environ_setitem (lit "LLM_MODEL") model;;
       environ_setitem (lit "MAX_WEB_RESEARCH_LOOPS") (py_str_int max_loops);;
       progress 0.3 (lit "Starting deep research...");;
       let research_request :=
         {| req_query := query;
            req_extra_effort := extra_effort;
            req_minimum_effort := minimum_effort;
            req_streaming := false;
            req_provider := provider;
            req_model := model;
            req_uploaded_data_content := uploaded_data_content;
            req_steering_enabled := enable_steering |} in
       result ←
         call_engine
           {| kw_query := query;
              kw_extra_effort := extra_effort;
              kw_minimum_effort := minimum_effort;
              kw_provider := provider;
              kw_model := model;
              kw_streaming := false;
              kw_uploaded_data_content := uploaded_data_content;
              kw_steering_enabled := enable_steering |};
       progress 1.0 (lit "Research complete!");;
       lift (extract_results result))
      (fun e =>
         logger ERROR (lit "Research error: " ++ exc_str e);;
         mret (VStr [], [],
               failure_mark ++ lit " Error during research: " ++ exc_str e)).
End Research.

(** ** What a request leaves behind

    The pieces of a request's trace, as functions of its inputs; the
    lemmas below relate them to what [conduct_research] does. *)

Section Trace.
Variable read_text : pystr -> read_failure + pystr.

Definition decodes (f : UploadedFile) : bool :=
  match read_text (name f) with
  | inr _ => true
  | inl _ => false
  end.

(** The labelled block of a file that was read. *)
Definition document_block (f : UploadedFile) : option pystr :=
  match read_text (name f) with
  | inr content =>
      Some (lit "=== File: " ++ basename (name f) ++ lit " ===" ++ [10%N]
            ++ content ++ [10%N])
  | inl _ => None
  end.

(** The log record of a file that was skipped. *)
Definition skip_warning (f : UploadedFile) : option (log_level * pystr) :=
  match read_text (name f) with
  | inl failure =>
      Some (WARNING,
            lit "Could not read file " ++ name f ++ lit ": "
            ++ failure_reason failure)
  | inr _ => None
  end.

Definition uploaded_content (uploaded_files : option (list UploadedFile))
    : option pystr :=
  match omap document_block (default [] uploaded_files) with
  | [] => None
  | blocks => Some (py_join [10%N; 10%N] blocks)
  end.

(** The keyword arguments the engine is called with. *)
Definition dispatch_kwargs (query provider model : pystr)
    (extra_effort minimum_effort enable_steering : bool)
    (uploaded_files : option (list UploadedFile)) : engine_kwargs :=
  {| kw_query := query;
     kw_extra_effort := extra_effort;
     kw_minimum_effort := minimum_effort;
     kw_provider := provider;
     kw_model := model;
     kw_streaming := false;
     kw_uploaded_data_content := uploaded_content uploaded_files;
     kw_steering_enabled := enable_steering |}.
End Trace.

(** The environment after the three assignments of lines 117-119. *)
Definition session_environ (env : gmap pystr pystr) (provider model : pystr)
    (max_loops : Z) : gmap pystr pystr :=
  <[lit "MAX_WEB_RESEARCH_LOOPS" := py_str_int max_loops]>
    (<[lit "LLM_MODEL" := model]> (<[lit "LLM_PROVIDER" := provider]> env)).

(** A query that is empty or holds white space only. *)
Definition blank (query : pystr) : Prop :=
  Forall (fun c => py_isspace c = true) query.

Definition add_progress_calls (calls : list (Q * pystr)) (w : world) : world :=
  {| environ := environ w;
     progress_calls := progress_calls w ++ calls;
     log_records := log_records w;
     engine_calls := engine_calls w |}.

Definition add_log_records (records : list (log_level * pystr)) (w : world)
    : world :=
  {| environ := environ w;
     progress_calls := progress_calls w;
     log_records := log_records w ++ records;
     engine_calls := engine_calls w |}.

(** The progress call of the upload branch, made when the list of
    uploads is non-empty. *)
Definition ingest_progress (uploaded_files : option (list UploadedFile))
    : list (Q * pystr) :=
  if list_truthy uploaded_files
  then [(0.2%Q, lit "Processing uploaded files...")]
  else [].

(** The triple of the outer handler (line 161). *)
Definition error_result (e : pyexc) : pyval * pystr * pystr :=
  (VStr [], [], failure_mark ++ lit " Error during research: " ++ exc_str e).

Definition error_record (e : pyexc) : log_level * pystr :=
  (ERROR, lit "Research error: " ++ exc_str e).

(** The world right after the engine has been called. *)
Definition dispatched_world (read_text : pystr -> read_failure + pystr)
    (query provider model : pystr) (max_loops : Z)
    (extra_effort minimum_effort enable_steering : bool)
    (uploaded_files : option (list UploadedFile)) (w : world) : world :=
  let env := session_environ (environ w) provider model max_loops in
  {| environ := env;
     progress_calls :=
       progress_calls w
       ++ [(0.1%Q, lit "Initializing research...")]
       ++ ingest_progress uploaded_files
       ++ [(0.3%Q, lit "Starting deep research...")];
     log_records :=
       log_records w
       ++ [(INFO, lit "Starting research: " ++ take 50 query ++ lit "...")]
       ++ omap (skip_warning read_text) (default [] uploaded_files);
     engine_calls :=
       engine_calls w
       ++ [(env,
            dispatch_kwargs read_text query provider model extra_effort
              minimum_effort enable_steering uploaded_files)] |}.

(** The exception of [os.environ] for a value with a NUL character. *)
Definition embedded_null : pyexc :=
  {| exc_class := ValueError; exc_str := lit "embedded null byte" |}.

(** ** Sample collaborators and inputs *)

Definition initial_world : world :=
  {| environ := ∅; progress_calls := []; log_records := [];
     engine_calls := [] |}.

(** [repr] of a [str] that needs no escape: the text in single quotes. *)
Definition quoted (s : pystr) : pystr := lit "'" ++ s ++ lit "'".

(** A file system without readable files. *)
Definition no_such_file (path : pystr) : read_failure + pystr :=
  inl (Unreadable
         (lit "[Errno 2] No such file or directory: " ++ quoted path)).

(** A file system with two text files and one file that is not UTF-8. *)
Definition sample_files (path : pystr) : read_failure + pystr :=
  if bool_decide (path = lit "/tmp/gradio/a.txt") then inr (lit "alpha")
  else if bool_decide (path = lit "/tmp/gradio/b.bin") then
    inl (Undecodable
           (lit "'utf-8' codec can't decode byte 0xff in position 0: invalid start byte"))
  else if bool_decide (path = lit "/tmp/gradio/c.txt") then inr (lit "gamma")
  else no_such_file path.

Definition sample_uploads : list UploadedFile :=
  [ {| name := lit "/tmp/gradio/a.txt" |};
    {| name := lit "/tmp/gradio/b.bin" |};
    {| name := lit "/tmp/gradio/c.txt" |} ].

(** An engine that returns the result of the end-to-end example. *)
Definition sample_result : pyval :=
  VDict [ (lit "running_summary", VStr (lit "Report body"));
          (lit "sources_gathered",
            VList [VStr (lit "https://a.com"); VStr (lit "https://b.com")]);
          (lit "research_loop_count", VInt 5) ].

Definition sample_engine (env : gmap pystr pystr) (kwargs : engine_kwargs)
    : outcome pyval :=
  Returned sample_result.

#[global] Instance blank_dec (query : pystr) : Decision (blank query).
Proof. unfold blank. apply _. Defined.



(** An engine that fails with an ordinary error. *)
Definition failing_engine (env : gmap pystr pystr) (kwargs : engine_kwargs)
    : outcome pyval :=
  Raised {| exc_class := OtherException "RateLimitError";
            exc_str := lit "quota exceeded" |}.

(** The fractions the code passes to [progress]. *)
Definition milestones : list Q := [0.1%Q; 0.2%Q; 0.3%Q; 1.0%Q].

(** The request of the end-to-end example, with a query, a provider, a
    model, a loop count, the minimum-effort flag and the uploads to vary. *)
Definition sample_run
    (engine : gmap pystr pystr -> engine_kwargs -> outcome pyval)
    (query provider model : pystr) (max_loops : Z) (minimum_effort : bool)
    (uploaded_files : option (list UploadedFile))
    : outcome (pyval * pystr * pystr) * world :=
  conduct_research quoted no_such_file engine query provider model max_loops
    false minimum_effort false uploaded_files initial_world.

(** The example itself. *)
Definition end_to_end_run : outcome (pyval * pystr * pystr) * world :=
  sample_run sample_engine (lit "quantum computing trends") (lit "openai")
    (lit "o3-mini") 5 false None.

(** One upload, which cannot be read. *)
Definition unreadable_upload : option (list UploadedFile) :=
  Some [{| name := lit "/tmp/gradio/notes.txt" |}].

(** A request with that upload and the given query. *)
Definition upload_run (query : pystr)
    : outcome (pyval * pystr * pystr) * world :=
  sample_run sample_engine query (lit "openai") (lit "o3-mini") 5 false
    unreadable_upload.

(** ** The report document and the start of the application *)

(** [format_research_output] (lines 164-179): the f-string of the
    markdown document. *)
Definition format_research_output (report sources status : pystr) : pystr :=
  lit "# Research Report" ++ [10%N; 10%N]
  ++ report ++ [10%N; 10%N]
  ++ lit "---" ++ [10%N; 10%N]
  ++ lit "## Sources" ++ [10%N]
  ++ sources ++ [10%N; 10%N]
  ++ lit "---" ++ [10%N; 10%N]
  ++ lit "**Status**: " ++ status ++ [10%N].

(** [os.environ.get(key, default)]. *)
Definition environ_get (env : gmap pystr pystr) (key default : pystr)
    : pystr :=
  match env !! key with
  | Some v => v
  | None => default
  end.

(** The globals of lines 46-47, read from the environment the module is
    imported in. *)
Definition LLM_PROVIDER (env : gmap pystr pystr) : pystr :=
  environ_get env (lit "LLM_PROVIDER") (lit "openai").

Definition LLM_MODEL (env : gmap pystr pystr) : pystr :=
  environ_get env (lit "LLM_MODEL") (lit "o3-mini").

(** The two dropdowns as [create_gradio_interface] builds them (lines
    260-271). *)
Definition provider_dropdown (env : gmap pystr pystr) : Dropdown :=
  {| choices := PROVIDERS.*1; value := LLM_PROVIDER env |}.

Definition model_dropdown (env : gmap pystr pystr) : Dropdown :=
  {| choices := get_models_for_provider (LLM_PROVIDER env);
     value := LLM_MODEL env |}.

(** [key in d] and [d[key]] on association data. *)
Fixpoint dict_lookup {V : Type} (entries : list (pystr * V)) (key : pystr)
    : option V :=
  match entries with
  | [] => None
  | (k, v) :: rest =>
      if bool_decide (k = key) then Some v else dict_lookup rest key
  end.

(** [provider_key_map] of [main] (lines 599-605). *)
Definition provider_key_map : list (pystr * pystr) :=
  [ (lit "openai", lit "OPENAI_API_KEY");
    (lit "anthropic", lit "ANTHROPIC_API_KEY");
    (lit "google", lit "GOOGLE_CLOUD_PROJECT");
    (lit "groq", lit "GROQ_API_KEY");
    (lit "sambanova", lit "SAMBNOVA_API_KEY") ].

(** [not os.environ.get(key)]: the variable is missing or empty. *)
Definition environ_missing (env : gmap pystr pystr) (key : pystr) : bool :=
  match env !! key with
  | Some v => negb (str_truthy v)
  | None => true
  end.

(** The characters that open the two warnings of [main], as the source
    file has them. *)
Definition warning_mark : pystr :=
  [0x201A; 0xF6; 0x2020; 0xD4; 0x220F; 0xE8]%N.
Arguments warning_mark : simpl never.

Definition tavily_warning : pystr :=
  warning_mark
  ++ lit "  Warning: TAVILY_API_KEY not set. Web search will not work.".

Definition provider_warning (key_name provider : pystr) : pystr :=
  warning_mark ++ lit "  Warning: " ++ key_name
  ++ lit " not set. LLM provider '" ++ provider ++ lit "' may not work.".

(** The check of the API keys in [main] (lines 595-610): the warnings it
    prints, for the provider global and the environment. *)
Definition api_key_warnings (provider : pystr) (env : gmap pystr pystr)
    : list pystr :=
  (if environ_missing env (lit "TAVILY_API_KEY") then [tavily_warning]
   else [])
  ++ match dict_lookup provider_key_map provider with
     | Some key_name =>
         if environ_missing env key_name
         then [provider_warning key_name provider]
         else []
     | None => []
     end.

(** [main] (lines 585-614), up to the launch of the interface: what it
    prints, one string per call of [print], given the three globals and
    the environment. *)
Definition main (provider model : pystr) (max_loops : Z)
    (env : gmap pystr pystr) : list pystr :=
  [ replicate 80 61%N;
    [0xF8FF; 0xFC; 0xEE; 0xE7]%N
    ++ lit " Enterprise Deep Research - Gradio Interface";
    replicate 80 61%N;
    lit "Provider: " ++ provider;
    lit "Model: " ++ model;
    lit "Max Loops: " ++ py_str_int max_loops;
    replicate 80 61%N ]
  ++ api_key_warnings provider env
  ++ [ [10%N] ++ [0xF8FF; 0xFC; 0xF6; 0xC4]%N
       ++ lit " Starting Gradio interface...";
       [0xF8FF; 0xFC; 0xEC; 0xF9]%N
       ++ lit " Configure your .env file with API keys for full functionality";
       replicate 80 61%N ].

(** ** More of a request's trace *)

(** The world once the uploads are read, before the environment is
    written. *)
Definition ingested_world (read_text : pystr -> read_failure + pystr)
    (query : pystr) (uploaded_files : option (list UploadedFile))
    (w : world) : world :=
  {| environ := environ w;
     progress_calls :=
       progress_calls w
       ++ [(0.1%Q, lit "Initializing research...")]
       ++ ingest_progress uploaded_files;
     log_records :=
       log_records w
       ++ [(INFO, lit "Starting research: " ++ take 50 query ++ lit "...")]
       ++ omap (skip_warning read_text) (default [] uploaded_files);
     engine_calls := engine_calls w |}.

Definition set_environ (env : gmap pystr pystr) (w : world) : world :=
  {| environ := env;
     progress_calls := progress_calls w;
     log_records := log_records w;
     engine_calls := engine_calls w |}.

(** The three variables a request assigns. *)
Definition session_keys : list pystr :=
  [lit "LLM_PROVIDER"; lit "LLM_MODEL"; lit "MAX_WEB_RESEARCH_LOOPS"].



(** * Properties *)

Lemma py_lstrip_nil (s : pystr) : py_lstrip s = [] <-> blank s.
Proof.
  unfold blank. induction s as [|c r IH]; simpl.
  - split; [constructor | reflexivity].
  - destruct (py_isspace c) eqn:Hc.
    + rewrite IH. split; [by constructor | by inversion 1].
    + split; [discriminate | inversion 1; congruence].
Qed.

Lemma py_lstrip_head (s : pystr) (c : N) (r : pystr) :
  py_lstrip s = c :: r -> py_isspace c = false.
Proof.
  induction s as [|d t IH]; simpl; [discriminate|].
  destruct (py_isspace d) eqn:Hd; [done|].
  intros [= -> _]. done.
Qed.

Lemma py_strip_nil (s : pystr) : py_strip s = [] <-> blank s.
Proof.
  unfold py_strip. split.
  - intros H. apply py_lstrip_nil.
    destruct (py_lstrip s) as [|c r] eqn:Hs; [done|].
    apply (f_equal reverse) in H. rewrite reverse_involutive in H.
    simpl in H. apply py_lstrip_nil in H.
    apply py_lstrip_head in Hs.
    unfold blank in H. rewrite Forall_forall in H.
    rewrite (H c) in Hs; [done|].
    rewrite elem_of_reverse. left.
  - intros H. apply py_lstrip_nil in H. by rewrite H.
Qed.

(** The guard of line 93 is the blank test. *)
Lemma guard_blank (query : pystr) :
  negb (str_truthy query) || negb (str_truthy (py_strip query)) = true
  <-> blank query.
Proof.
  unfold str_truthy. rewrite !negb_involutive, orb_true_iff, !bool_decide_eq_true.
  rewrite py_strip_nil. split; [|by right].
  intros [->|H]; [constructor | done].
Qed.

Lemma guard_not_blank (query : pystr) :
  ~ blank query ->
  negb (str_truthy query) || negb (str_truthy (py_strip query)) = false.
Proof.
  intros H. apply not_true_is_false. by rewrite guard_blank.
Qed.

(** The early return of line 94. *)
Lemma conduct_research_blank (repr_str : pystr -> pystr)
    (read_text : pystr -> read_failure + pystr)
    (engine : gmap pystr pystr -> engine_kwargs -> outcome pyval)
    (query provider model : pystr) (max_loops : Z)
    (extra_effort minimum_effort enable_steering : bool)
    (uploaded_files : option (list UploadedFile)) (w : world) :
  blank query ->
  conduct_research repr_str read_text engine query provider model max_loops
    extra_effort minimum_effort enable_steering uploaded_files w
  = (Returned (VStr [], [], failure_mark ++ lit " Please enter a research query"),
     w).
Proof.
  intros Hq. unfold conduct_research.
  by rewrite (proj2 (guard_blank query) Hq).
Qed.

(** Unfolds the monad's operations and the effects, to run an action on a
    symbolic world. *)
Ltac run_action :=
  unfold mbind, action_bind, mthrow, action_throw, mret, action_ret,
    try_except_Exception, logger, progress, lift; cbn.

Section Ingestion.
Variable read_text : pystr -> read_failure + pystr.

Lemma exc_str_failure (f : read_failure) :
  exc_str (exception_of_failure f) = failure_reason f.
Proof. by destruct f. Qed.

Lemma derives_Exception_failure (f : read_failure) :
  derives_Exception (exc_class (exception_of_failure f)) = true.
Proof. by destruct f. Qed.

Lemma read_uploaded_files_from (files : list UploadedFile)
    (file_contents : list pystr) (w : world) :
  read_uploaded_files read_text files file_contents w
  = (Returned (file_contents ++ omap (document_block read_text) files),
     add_log_records (omap (skip_warning read_text) files) w).
Proof.
  revert file_contents w.
  induction files as [|f rest IH]; intros file_contents w.
  - simpl. unfold mret, action_ret, add_log_records.
    rewrite !app_nil_r. by destruct w.
  - cbn [read_uploaded_files omap list_omap].
    unfold open_and_read, document_block at 1, skip_warning at 1.
    destruct (read_text (name f)) as [[reason|reason]|content];
      run_action; rewrite IH; unfold add_log_records; cbn;
      by rewrite <- !(assoc_L (++)).
Qed.
End Ingestion.

(** ** Running a request that reaches the engine *)

Lemma lit_no_nul_uint (d : Decimal.uint) :
  0%N ∉ lit (NilEmpty.string_of_uint d).
Proof.
  unfold lit. induction d; cbn; rewrite ?not_elem_of_cons;
    try (split; [done | assumption]).
  apply not_elem_of_nil.
Qed.

Lemma py_str_int_no_nul (z : Z) : 0%N ∉ py_str_int z.
Proof.
  unfold py_str_int, NilZero.string_of_int.
  assert (Hu : forall d, 0%N ∉ lit (NilZero.string_of_uint d)).
  { intros d. unfold NilZero.string_of_uint.
    destruct d; try apply lit_no_nul_uint.
    unfold lit. cbn. rewrite not_elem_of_cons. split; [done|apply not_elem_of_nil]. }
  destruct (Z.to_int z) as [d|d]; [apply Hu|].
  specialize (Hu d). unfold lit in *. cbn. rewrite not_elem_of_cons. done.
Qed.

Lemma environ_setitem_accepts (key value : pystr) (w : world) :
  0%N ∉ value ->
  environ_setitem key value w
  = (Returned tt,
     {| environ := <[key := value]> (environ w);
        progress_calls := progress_calls w;
        log_records := log_records w;
        engine_calls := engine_calls w |}).
Proof. intros H. unfold environ_setitem. by rewrite bool_decide_eq_false_2. Qed.

Lemma environ_setitem_refuses (key value : pystr) (w : world) :
  0%N ∈ value ->
  environ_setitem key value w
  = (Raised {| exc_class := ValueError; exc_str := lit "embedded null byte" |},
     w).
Proof. intros H. unfold environ_setitem. by rewrite bool_decide_eq_true_2. Qed.

Section Dispatch.
Variable repr_str : pystr -> pystr.
Variable read_text : pystr -> read_failure + pystr.
Variable engine : gmap pystr pystr -> engine_kwargs -> outcome pyval.

(** What [extract_results] raises, the outer handler catches. *)
Lemma extract_results_raises (result : pyval) (e : pyexc) :
  extract_results repr_str result = Raised e ->
  derives_Exception (exc_class e) = true.
Proof.
  unfold extract_results, py_get, py_iter.
  unfold mbind, outcome_bind, mret, outcome_ret.
  destruct result; try (intros [= <-]; reflexivity).
  destruct (py_truthy _); [|discriminate].
  destruct (dict_get entries (lit "sources_gathered") (VList []));
    try discriminate; intros [= <-]; reflexivity.
Qed.

Lemma conduct_research_dispatched (query provider model : pystr)
    (max_loops : Z) (extra_effort minimum_effort enable_steering : bool)
    (uploaded_files : option (list UploadedFile)) (w : world) :
  ~ blank query -> 0%N ∉ provider -> 0%N ∉ model ->
  conduct_research repr_str read_text engine query provider model max_loops
    extra_effort minimum_effort enable_steering uploaded_files w
  = let wd := dispatched_world read_text query provider model max_loops
                extra_effort minimum_effort enable_steering uploaded_files w in
    match engine (session_environ (environ w) provider model max_loops)
            (dispatch_kwargs read_text query provider model extra_effort
               minimum_effort enable_steering uploaded_files) with
    | Raised e =>
        if derives_Exception (exc_class e)
        then (Returned (error_result e), add_log_records [error_record e] wd)
        else (Raised e, wd)
    | Returned result =>
        let wc := add_progress_calls [(1.0%Q, lit "Research complete!")] wd in
        match extract_results repr_str result with
        | Returned t => (Returned t, wc)
        | Raised e =>
            (Returned (error_result e), add_log_records [error_record e] wc)
        end
    end.
Proof.
  intros Hq Hp Hm. unfold conduct_research.
  rewrite (guard_not_blank _ Hq).
  unfold dispatched_world, dispatch_kwargs, uploaded_content,
    ingest_progress, session_environ, error_result, error_record,
    add_log_records, add_progress_calls.
  run_action.
  destruct (list_truthy uploaded_files) eqn:Hfiles.
  - rewrite read_uploaded_files_from. unfold add_log_records. cbn.
    rewrite !environ_setitem_accepts by (done || apply py_str_int_no_nul).
    cbn.
    destruct (omap (document_block read_text) (default [] uploaded_files));
      destruct (engine _ _) as [result|e]; cbn;
      rewrite <- ?(assoc_L (++)); cbn;
      try (destruct (derives_Exception (exc_class e)); reflexivity);
      destruct (extract_results repr_str result) as [t|e] eqn:Hx;
      try reflexivity;
      by rewrite (extract_results_raises _ _ Hx).
  - assert (Hnone : omap (document_block read_text)
                      (default [] uploaded_files) = []).
    { by destruct uploaded_files as [[|f files]|]. }
    assert (Hskip : omap (skip_warning read_text)
                      (default [] uploaded_files) = []).
    { by destruct uploaded_files as [[|f files]|]. }
    rewrite Hnone, Hskip.
    rewrite !environ_setitem_accepts by (done || apply py_str_int_no_nul).
    cbn.
    destruct (engine _ _) as [result|e]; cbn;
      rewrite <- ?(assoc_L (++)), ?app_nil_r; cbn;
      try (destruct (derives_Exception (exc_class e)); reflexivity);
      destruct (extract_results repr_str result) as [t|e] eqn:Hx;
      try reflexivity;
      by rewrite (extract_results_raises _ _ Hx).
Qed.

(** With a NUL character in the provider or the model the assignment to
    [os.environ] raises, and the request ends in the outer handler
    without a call of the engine. *)
Lemma conduct_research_refused (query provider model : pystr)
    (max_loops : Z) (extra_effort minimum_effort enable_steering : bool)
    (uploaded_files : option (list UploadedFile)) (w : world) :
  ~ blank query -> 0%N ∈ provider \/ 0%N ∈ model ->
  exists w',
    conduct_research repr_str read_text engine query provider model
      max_loops extra_effort minimum_effort enable_steering uploaded_files w
    = (Returned (error_result embedded_null), w')
    /\ engine_calls w' = engine_calls w
    /\ progress_calls w'
       = progress_calls w ++ [(0.1%Q, lit "Initializing research...")]
         ++ ingest_progress uploaded_files.
Proof.
  intros Hq Hnul. unfold conduct_research.
  rewrite (guard_not_blank _ Hq).
  unfold ingest_progress, error_result, embedded_null.
  run_action.
  destruct (list_truthy uploaded_files) eqn:Hfiles;
    rewrite ?read_uploaded_files_from; unfold add_log_records; cbn;
    (destruct (decide (0%N ∈ provider)) as [Hp|Hp];
     [ rewrite (environ_setitem_refuses _ provider) by done
     | rewrite (environ_setitem_accepts _ provider) by done;
       destruct Hnul as [Hnul|Hnul]; [done|];
       rewrite (environ_setitem_refuses _ model) by done ]);
    cbn; eexists; (split; [reflexivity|]); cbn;
    by rewrite <- ?(assoc_L (++)), ?app_nil_r.
Qed.
End Dispatch.

(** ** Lookups in a dict *)

Lemma dict_get_absent {V : Type} (entries : list (pystr * V)) (key : pystr)
    (default : V) :
  key ∉ (entries.*1) -> dict_get entries key default = default.
Proof.
  induction entries as [|[k v] rest IH]; [done|].
  cbn. rewrite not_elem_of_cons. intros [Hne Hrest].
  rewrite bool_decide_eq_false_2 by done. by apply IH.
Qed.

Lemma dict_get_present {V : Type} (entries : list (pystr * V)) (key : pystr)
    (v default : V) :
  NoDup (entries.*1) -> (key, v) ∈ entries -> dict_get entries key default = v.
Proof.
  induction entries as [|[k u] rest IH]; [by rewrite elem_of_nil|].
  cbn. rewrite NoDup_cons, elem_of_cons. intros [Hk Hrest] [[= -> ->]|Hin].
  - by rewrite bool_decide_eq_true_2.
  - rewrite bool_decide_eq_false_2; [by apply IH|].
    intros ->. apply Hk. by apply (list_elem_of_fmap_2 fst _ (key, v)).
Qed.

(** ** The provider catalog and the model dropdown *)

(** C10: for a provider of the catalog the model lookup returns that
    provider's list, in its order; for any other string it returns
    [["default"]] and does not fail; and [update_models] never fails: it
    selects the first element of the list the lookup returned. *)
Theorem get_models_for_provider_lookup (provider : pystr) :
  (forall models,
      (provider, models) ∈ PROVIDERS ->
      get_models_for_provider provider = models)
  /\ (provider ∉ (PROVIDERS.*1) ->
      get_models_for_provider provider = [lit "default"])
  /\ exists first rest,
      get_models_for_provider provider = first :: rest
      /\ update_models provider
         = Returned {| choices := get_models_for_provider provider;
                       value := first |}.
Proof.
  assert (Hnodup : NoDup (PROVIDERS.*1)) by compute_done.
  split; [|split].
  - intros models Hin. by apply dict_get_present.
  - apply dict_get_absent.
  - unfold update_models.
    destruct (decide (provider ∈ (PROVIDERS.*1))) as [Hin|Hout].
    + apply list_elem_of_fmap in Hin as [[k models] [-> Hin]].
      unfold get_models_for_provider.
      rewrite (dict_get_present _ _ models) by done.
      cbn [fst] in *. clear Hnodup. unfold PROVIDERS in Hin.
      repeat (apply elem_of_cons in Hin as [[= -> ->]|Hin];
              [by eexists _, _|]).
      by apply elem_of_nil in Hin.
    + unfold get_models_for_provider. rewrite dict_get_absent by done.
      by eexists _, _.
Qed.

Lemma get_models_for_provider_lookup_witness :
  ((lit "groq",
     [lit "deepseek-r1-distill-llama-70b"; lit "llama-3.3-70b-versatile";
      lit "llama3-70b-8192"]) ∈ PROVIDERS
   /\ get_models_for_provider (lit "groq")
      = [lit "deepseek-r1-distill-llama-70b"; lit "llama-3.3-70b-versatile";
         lit "llama3-70b-8192"])
  /\ ((lit "ollama" ∉ (PROVIDERS.*1))
      /\ get_models_for_provider (lit "ollama") = [lit "default"]).
Proof.
  split.
  - assert (Hin : (lit "groq",
                    [lit "deepseek-r1-distill-llama-70b";
                     lit "llama-3.3-70b-versatile"; lit "llama3-70b-8192"])
                  ∈ PROVIDERS) by compute_done.
    split; [exact Hin|].
    exact (proj1 (get_models_for_provider_lookup (lit "groq")) _ Hin).
  - assert (Hout : lit "ollama" ∉ (PROVIDERS.*1)) by compute_done.
    split; [exact Hout|].
    exact (proj1 (proj2 (get_models_for_provider_lookup (lit "ollama"))) Hout).
Defined.

(** ** Validation of the query *)

(** C2: a query that is empty or all white space is answered at once with
    two empty strings and the "please enter" status, whatever the other
    inputs; the world is left as it was, so that nothing was done and the
    engine was not called. *)
Theorem blank_query_returns_at_once
    (repr_str : pystr -> pystr) (read_text : pystr -> read_failure + pystr)
    (engine : gmap pystr pystr -> engine_kwargs -> outcome pyval)
    (query provider model : pystr) (max_loops : Z)
    (extra_effort minimum_effort enable_steering : bool)
    (uploaded_files : option (list UploadedFile)) (w : world) :
  blank query ->
  conduct_research repr_str read_text engine query provider model max_loops
    extra_effort minimum_effort enable_steering uploaded_files w
  = (Returned (VStr [], [], failure_mark ++ lit " Please enter a research query"),
     w)
  /\ engine_calls
       (conduct_research repr_str read_text engine query provider model
          max_loops extra_effort minimum_effort enable_steering
          uploaded_files w).2
     = engine_calls w.
Proof.
  intros Hq. by rewrite conduct_research_blank.
Qed.

Lemma blank_query_returns_at_once_witness :
  blank (lit "   ")
  /\ upload_run (lit "   ")
     = (Returned
          (VStr [], [], failure_mark ++ lit " Please enter a research query"),
        initial_world)
  /\ engine_calls (upload_run (lit "   ")).2 = [].
Proof.
  assert (Hq : blank (lit "   ")) by compute_done.
  split; [exact Hq|].
  exact (blank_query_returns_at_once quoted no_such_file sample_engine
           (lit "   ") (lit "openai") (lit "o3-mini") 5 false false false
           (Some [{| name := lit "/tmp/gradio/notes.txt" |}]) initial_world Hq).
Defined.

(** ** Ingestion of the uploaded files *)

Lemma omap_document_block_length (read_text : pystr -> read_failure + pystr)
    (files : list UploadedFile) :
  (length (omap (document_block read_text) files)
   + length (filter (fun f => decodes read_text f = false) files))%nat
  = length files.
Proof.
  induction files as [|f rest IH]; [done|].
  cbn [omap list_omap]. rewrite filter_cons.
  unfold document_block at 1.
  destruct (decide (decodes read_text f = false)) as [Hd|Hd];
    unfold decodes in Hd; destruct (read_text (name f)); try done; cbn; lia.
Qed.

Lemma omap_skip_warning_length (read_text : pystr -> read_failure + pystr)
    (files : list UploadedFile) :
  length (omap (skip_warning read_text) files)
  = length (filter (fun f => decodes read_text f = false) files).
Proof.
  induction files as [|f rest IH]; [done|].
  cbn [omap list_omap]. rewrite filter_cons.
  unfold skip_warning at 1.
  destruct (decide (decodes read_text f = false)) as [Hd|Hd];
    unfold decodes in Hd; destruct (read_text (name f)); try done; cbn; lia.
Qed.

(** C5, as the code has it: of N uploaded files of which M cannot be read
    or decoded, the loop returns the labelled blocks of the N-M others in
    upload order and never raises, a failure skipping that file only; the
    M skipped files are reported as M warning records of the logger, in
    upload order, each with the file's path and the reason; nothing else
    of the world changes. *)
Theorem read_uploaded_files_skips_failures
    (read_text : pystr -> read_failure + pystr)
    (uploaded_files : list UploadedFile) (w : world) :
  let failed := filter (fun f => decodes read_text f = false) uploaded_files in
  exists (file_contents : list pystr) (warnings : list (log_level * pystr)),
    read_uploaded_files read_text uploaded_files [] w
    = (Returned file_contents, add_log_records warnings w)
    /\ file_contents = omap (document_block read_text) uploaded_files
    /\ warnings = omap (skip_warning read_text) uploaded_files
    /\ length file_contents = (length uploaded_files - length failed)%nat
    /\ length warnings = length failed.
Proof.
  intros failed.
  exists (omap (document_block read_text) uploaded_files),
    (omap (skip_warning read_text) uploaded_files).
  split; [apply read_uploaded_files_from|].
  split; [done|]. split; [done|]. subst failed.
  pose proof (omap_document_block_length read_text uploaded_files).
  pose proof (omap_skip_warning_length read_text uploaded_files).
  split; [lia | done].
Qed.

(** Three uploads, the second of which is not UTF-8. *)
Example read_uploaded_files_sample :
  read_uploaded_files sample_files sample_uploads [] initial_world
  = (Returned
       [ lit "=== File: a.txt ===" ++ [10%N] ++ lit "alpha" ++ [10%N];
         lit "=== File: c.txt ===" ++ [10%N] ++ lit "gamma" ++ [10%N] ],
     add_log_records
       [ (WARNING,
          lit "Could not read file /tmp/gradio/b.bin: 'utf-8' codec can't decode byte 0xff in position 0: invalid start byte") ]
       initial_world)
  /\ kw_uploaded_data_content
       <$> (engine_calls
              (conduct_research quoted sample_files sample_engine
                 (lit "tides") (lit "openai") (lit "o3-mini") 5 false false
                 false (Some sample_uploads) initial_world).2).*2
     = [ Some (lit "=== File: a.txt ===" ++ [10%N] ++ lit "alpha" ++ [10%N]
               ++ [10%N; 10%N]
               ++ lit "=== File: c.txt ===" ++ [10%N] ++ lit "gamma"
               ++ [10%N]) ].
Proof. split; vm_compute; reflexivity. Qed.

(** C5, against the claim: a request with one unreadable upload returns
    the very triple of the same request without uploads; the skipped file
    shows in the log only, and no reading of the returned triple can count
    the skipped files. *)
Lemma skipped_file_is_logged_only :
  (upload_run (lit "tides")).1
  = (sample_run sample_engine (lit "tides") (lit "openai") (lit "o3-mini") 5
       false None).1
  /\ (upload_run (lit "tides")).1
     = Returned
         (VStr (lit "Report body"),
          lit "- https://a.com" ++ [10%N] ++ lit "- https://b.com",
          success_mark ++ lit " Research complete! Conducted 5 research loops.")
  /\ log_records (upload_run (lit "tides")).2
     = [ (INFO, lit "Starting research: tides...");
         (WARNING,
          lit "Could not read file /tmp/gradio/notes.txt: [Errno 2] No such file or directory: '/tmp/gradio/notes.txt'") ]
  /\ ~ (exists recorded : pyval * pystr * pystr -> list (pystr * pystr),
         forall files,
           match (sample_run sample_engine (lit "tides") (lit "openai")
                    (lit "o3-mini") 5 false files).1 with
           | Returned result =>
               length (recorded result)
               = length (filter (fun f => decodes no_such_file f = false)
                           (default [] files))
           | Raised _ => False
           end).
Proof.
  assert (Hsame : (upload_run (lit "tides")).1
                  = (sample_run sample_engine (lit "tides") (lit "openai")
                       (lit "o3-mini") 5 false None).1)
    by (vm_compute; reflexivity).
  split; [exact Hsame|].
  split; [vm_compute; reflexivity|].
  split; [vm_compute; reflexivity|].
  intros [recorded Hrec].
  pose proof (Hrec unreadable_upload) as Hbad. pose proof (Hrec None) as Hnone.
  fold (upload_run (lit "tides")) in Hbad.
  rewrite Hsame in Hbad.
  destruct ((sample_run sample_engine (lit "tides") (lit "openai")
               (lit "o3-mini") 5 false None).1) as [result|e]; [|done].
  rewrite Hbad in Hnone. vm_compute in Hnone. discriminate.
Qed.

(** ** Formatting of the engine's result *)


(** The case left out above: a true sources field that cannot be
    iterated makes the loop of line 152 raise. *)
Lemma extract_results_not_iterable (repr_str : pystr -> pystr)
    (entries : list (pystr * pyval)) (e : pyexc) :
  let sources := dict_get entries (lit "sources_gathered") (VList []) in
  py_truthy sources = true ->
  py_iter sources = Raised e ->
  extract_results repr_str (VDict entries) = Raised e
  /\ exc_class e = TypeError.
Proof.
  intros sources Htruthy Hiter.
  unfold extract_results, py_get. fold sources.
  unfold mbind, outcome_bind, mret, outcome_ret.
  rewrite Htruthy, Hiter. split; [done|].
  unfold py_iter in Hiter. by destruct sources; simplify_eq.
Qed.



(** ** Requests that reach the engine *)

Section Requests.
Variable repr_str : pystr -> pystr.
Variable read_text : pystr -> read_failure + pystr.
Variable engine : gmap pystr pystr -> engine_kwargs -> outcome pyval.

Variables query provider model : pystr.
Variable max_loops : Z.
Variables extra_effort minimum_effort enable_steering : bool.
Variable uploaded_files : option (list UploadedFile).
Variable w : world.

Let run : outcome (pyval * pystr * pystr) * world :=
  conduct_research repr_str read_text engine query provider model max_loops
    extra_effort minimum_effort enable_steering uploaded_files w.
Let env : gmap pystr pystr :=
  session_environ (environ w) provider model max_loops.
Let kwargs : engine_kwargs :=
  dispatch_kwargs read_text query provider model extra_effort
    minimum_effort enable_steering uploaded_files.

(** The engine is called once, in the environment the request has
    written, and the environment stays as written. *)
Lemma conduct_research_calls_engine_once :
  ~ blank query -> 0%N ∉ provider -> 0%N ∉ model ->
  engine_calls run.2 = engine_calls w ++ [(env, kwargs)]
  /\ environ run.2 = env.
Proof.
  intros Hq Hp Hm. subst run env kwargs.
  rewrite conduct_research_dispatched by done. cbn zeta.
  destruct (engine _ _) as [result|e].
  - by destruct (extract_results repr_str result).
  - by destruct (derives_Exception (exc_class e)).
Qed.






End Requests.

(** *** The claims on concrete requests *)










(** ** Progress *)

Section Progress.
Variable repr_str : pystr -> pystr.
Variable read_text : pystr -> read_failure + pystr.
Variable engine : gmap pystr pystr -> engine_kwargs -> outcome pyval.

Variables query provider model : pystr.
Variable max_loops : Z.
Variables extra_effort minimum_effort enable_steering : bool.
Variable uploaded_files : option (list UploadedFile).
Variable w : world.

Let run : outcome (pyval * pystr * pystr) * world :=
  conduct_research repr_str read_text engine query provider model max_loops
    extra_effort minimum_effort enable_steering uploaded_files w.

(** The progress calls of a request, path by path: none for a blank
    query; otherwise 0.1, then 0.2 if there are uploads, then 0.3 once
    the environment is written, then 1.0 once the engine has returned. *)
Lemma conduct_research_progress_calls :
  exists events,
    progress_calls run.2 = progress_calls w ++ events
    /\ ((blank query /\ events = [])
        \/ (~ blank query
            /\ exists rest,
                events = [(0.1%Q, lit "Initializing research...")]
                         ++ ingest_progress uploaded_files ++ rest
                /\ (rest = []
                    \/ rest = [(0.3%Q, lit "Starting deep research...")]
                    \/ rest = [(0.3%Q, lit "Starting deep research...");
                               (1.0%Q, lit "Research complete!")]))).
Proof.
  subst run.
  destruct (decide (blank query)) as [Hq|Hq].
  { exists []. rewrite conduct_research_blank by done.
    split; [by rewrite app_nil_r | by left]. }
  destruct (decide (0%N ∈ provider \/ 0%N ∈ model)) as [Hnul|Hnul].
  { destruct (conduct_research_refused repr_str read_text engine _ _ _
                max_loops extra_effort minimum_effort enable_steering
                uploaded_files w Hq Hnul) as (w' & -> & _ & Hprogress).
    eexists. split; [exact Hprogress|]. right. split; [done|].
    exists []. rewrite app_nil_r. by split; [|left]. }
  assert (Hp : 0%N ∉ provider) by (intros Hin; apply Hnul; by left).
  assert (Hm : 0%N ∉ model) by (intros Hin; apply Hnul; by right).
  rewrite conduct_research_dispatched by done. cbn zeta.
  destruct (engine _ _) as [result|e].
  - exists ([(0.1%Q, lit "Initializing research...")]
            ++ ingest_progress uploaded_files
            ++ [(0.3%Q, lit "Starting deep research...");
                (1.0%Q, lit "Research complete!")]).
    split.
    + destruct (extract_results repr_str result); cbn;
        rewrite <- (assoc_L (++)); cbn; by rewrite <- (assoc_L (++)).
    + right. split; [done|]. eexists. split; [done|]. by right; right.
  - exists ([(0.1%Q, lit "Initializing research...")]
            ++ ingest_progress uploaded_files
            ++ [(0.3%Q, lit "Starting deep research...")]).
    split.
    + by destruct (derives_Exception (exc_class e)).
    + right. split; [done|]. eexists. split; [done|]. by right; left.
Qed.

(** C9, as the code has it: the progress calls of one request have
    fractions that never decrease and are among 0.1, 0.2, 0.3 and 1.0,
    and the 0.2 call is made exactly when the query is not blank and the
    list of uploaded files is not empty. *)
Theorem progress_calls_are_milestones :
  exists events,
    progress_calls run.2 = progress_calls w ++ events
    /\ StronglySorted Qle (events.*1)
    /\ Forall (fun fraction => fraction ∈ milestones) (events.*1)
    /\ (0.2%Q ∈ (events.*1)
        <-> ~ blank query /\ list_truthy uploaded_files = true).
Proof.
  destruct conduct_research_progress_calls as (events & Hcalls & Hpath).
  exists events. split; [exact Hcalls|]. clear Hcalls.
  destruct Hpath as [[Hq ->]|(Hq & rest & -> & Hrest)].
  - cbn. split_and!; [constructor | constructor |].
    split; [by intros Hin%elem_of_nil | by intros [Hnq _]].
  - unfold ingest_progress, milestones.
    destruct (list_truthy uploaded_files);
      destruct Hrest as [-> | [-> | ->]]; cbn;
      (split_and!;
       [ repeat (constructor; [try done; repeat (constructor; [done|]);
                               constructor|]); constructor
       | repeat (constructor; [repeat constructor|]); constructor
       | split;
         [ intros Hin; split; [done|]; try done;
           repeat (apply elem_of_cons in Hin as [Hin|Hin];
                   [discriminate|]);
           by apply elem_of_nil in Hin
         | intros [_ Hfiles]; try done; repeat constructor ] ]).
Qed.
End Progress.

(** C9, against the claim: with a blank query no progress call is made,
    uploaded files or not. *)
Lemma blank_query_makes_no_progress_call :
  list_truthy unreadable_upload = true
  /\ progress_calls (upload_run (lit " ")).2 = []
  /\ (0.2%Q ∉ ((progress_calls (upload_run (lit " ")).2).*1)).
Proof.
  assert (Hnone : progress_calls (upload_run (lit " ")).2 = [])
    by (vm_compute; reflexivity).
  split_and!; [reflexivity | exact Hnone |].
  rewrite Hnone. apply not_elem_of_nil.
Qed.

(** * Further properties *)

(** ** Requests stopped by the environment *)

Section Refusal.
Variable repr_str : pystr -> pystr.
Variable read_text : pystr -> read_failure + pystr.
Variable engine : gmap pystr pystr -> engine_kwargs -> outcome pyval.

Variables query provider model : pystr.
Variable max_loops : Z.
Variables extra_effort minimum_effort enable_steering : bool.
Variable uploaded_files : option (list UploadedFile).
Variable w : world.

Let run : outcome (pyval * pystr * pystr) * world :=
  conduct_research repr_str read_text engine query provider model max_loops
    extra_effort minimum_effort enable_steering uploaded_files w.
Let wi : world := ingested_world read_text query uploaded_files w.

(** A NUL in the provider: the first assignment raises. *)
Lemma conduct_research_refused_provider :
  ~ blank query -> 0%N ∈ provider ->
  run = (Returned (error_result embedded_null),
         add_log_records [error_record embedded_null] wi).
Proof.
  intros Hq Hp. subst run wi. unfold conduct_research.
  rewrite (guard_not_blank _ Hq).
  unfold ingested_world, ingest_progress, error_result, error_record,
    embedded_null, add_log_records.
  run_action.
  destruct (list_truthy uploaded_files) eqn:Hfiles.
  - rewrite read_uploaded_files_from. unfold add_log_records. cbn.
    rewrite (environ_setitem_refuses _ provider) by done. cbn.
    by rewrite <- !(assoc_L (++)).
  - assert (Hskip : omap (skip_warning read_text)
                      (default [] uploaded_files) = []).
    { by destruct uploaded_files as [[|f files]|]. }
    rewrite Hskip.
    rewrite (environ_setitem_refuses _ provider) by done. cbn.
    by rewrite <- ?(assoc_L (++)), ?app_nil_r.
Qed.

(** A NUL in the model alone: the second assignment raises. *)
Lemma conduct_research_refused_model :
  ~ blank query -> 0%N ∉ provider -> 0%N ∈ model ->
  run = (Returned (error_result embedded_null),
         add_log_records [error_record embedded_null]
           (set_environ (<[lit "LLM_PROVIDER" := provider]> (environ w)) wi)).
Proof.
  intros Hq Hp Hm. subst run wi. unfold conduct_research.
  rewrite (guard_not_blank _ Hq).
  unfold ingested_world, ingest_progress, error_result, error_record,
    embedded_null, add_log_records, set_environ.
  run_action.
  destruct (list_truthy uploaded_files) eqn:Hfiles.
  - rewrite read_uploaded_files_from. unfold add_log_records. cbn.
    rewrite (environ_setitem_accepts _ provider) by done.
    rewrite (environ_setitem_refuses _ model) by done. cbn.
    by rewrite <- !(assoc_L (++)).
  - assert (Hskip : omap (skip_warning read_text)
                      (default [] uploaded_files) = []).
    { by destruct uploaded_files as [[|f files]|]. }
    rewrite Hskip.
    rewrite (environ_setitem_accepts _ provider) by done.
    rewrite (environ_setitem_refuses _ model) by done. cbn.
    by rewrite <- ?(assoc_L (++)), ?app_nil_r.
Qed.

End Refusal.


(** ** Every request *)

Lemma extract_results_status (repr_str : pystr -> pystr) (result : pyval)
    (report : pyval) (sources_text status : pystr) :
  extract_results repr_str result = Returned (report, sources_text, status) ->
  success_mark `prefix_of` status.
Proof.
  unfold extract_results, py_get.
  unfold mbind, outcome_bind, mret, outcome_ret.
  destruct result; try discriminate.
  destruct (py_truthy _); [destruct (py_iter _); [|discriminate]|];
    intros [= _ _ <-]; by eexists.
Qed.

Section Paths.
Variable repr_str : pystr -> pystr.
Variable read_text : pystr -> read_failure + pystr.
Variable engine : gmap pystr pystr -> engine_kwargs -> outcome pyval.

Variables query provider model : pystr.
Variable max_loops : Z.
Variables extra_effort minimum_effort enable_steering : bool.
Variable uploaded_files : option (list UploadedFile).
Variable w : world.

Let run : outcome (pyval * pystr * pystr) * world :=
  conduct_research repr_str read_text engine query provider model max_loops
    extra_effort minimum_effort enable_steering uploaded_files w.
Let env : gmap pystr pystr :=
  session_environ (environ w) provider model max_loops.
Let kwargs : engine_kwargs :=
  dispatch_kwargs read_text query provider model extra_effort
    minimum_effort enable_steering uploaded_files.

(** The three ways of a request. *)
Lemma conduct_research_paths :
  (blank query /\ run.2 = w)
  \/ (~ blank query /\ (0%N ∈ provider \/ 0%N ∈ model)
      /\ run.1 = Returned (error_result embedded_null)
      /\ engine_calls run.2 = engine_calls w
      /\ (environ run.2 = environ w
          \/ environ run.2 = <[lit "LLM_PROVIDER" := provider]> (environ w)))
  \/ (~ blank query /\ (0%N ∉ provider) /\ (0%N ∉ model)
      /\ engine_calls run.2 = engine_calls w ++ [(env, kwargs)]
      /\ environ run.2 = env).
Proof.
  destruct (decide (blank query)) as [Hq|Hq].
  { left. split; [done|]. subst run. by rewrite conduct_research_blank. }
  right.
  destruct (decide (0%N ∈ provider)) as [Hp|Hp].
  { left. subst run.
    rewrite (conduct_research_refused_provider repr_str read_text engine
               _ _ model max_loops extra_effort minimum_effort
               enable_steering uploaded_files w Hq Hp).
    split_and!; try done; by left. }
  destruct (decide (0%N ∈ model)) as [Hm|Hm].
  { left. subst run.
    rewrite (conduct_research_refused_model repr_str read_text engine
               _ _ _ max_loops extra_effort minimum_effort
               enable_steering uploaded_files w Hq Hp Hm).
    split_and!; try done; by right. }
  right. split_and!; try done;
    by apply conduct_research_calls_engine_once.
Qed.


(** X3: a request assigns no variable of the environment but
    [LLM_PROVIDER], [LLM_MODEL] and [MAX_WEB_RESEARCH_LOOPS], and removes
    none: every other key reads after the request as it read before. *)
Theorem other_variables_are_left_alone (key : pystr) :
  key ∉ session_keys ->
  environ run.2 !! key = environ w !! key.
Proof.
  unfold session_keys. rewrite !not_elem_of_cons.
  intros (Hp & Hm & Hl & _).
  destruct conduct_research_paths
    as [[Hq ->]|[(_ & _ & _ & _ & [-> | ->])|(_ & _ & _ & _ & ->)]];
    try done.
  - by rewrite lookup_insert_ne.
  - subst env. unfold session_environ. by rewrite !lookup_insert_ne.
Qed.

(** X14: the triple a request returns is either an error triple, with
    empty report and sources and a status that opens with the failure
    mark, or the formatted result of the engine, whose status opens with
    the success mark. *)
Theorem returned_triple_shape (report : pyval) (sources_text status : pystr) :
  run.1 = Returned (report, sources_text, status) ->
  (report = VStr [] /\ sources_text = []
   /\ failure_mark `prefix_of` status)
  \/ (exists result,
         engine env kwargs = Returned result
         /\ extract_results repr_str result
            = Returned (report, sources_text, status)
         /\ success_mark `prefix_of` status).
Proof.
  destruct conduct_research_paths
    as [[Hq Hw]|[(_ & _ & -> & _)|(Hq & Hp & Hm & _)]].
  - subst run. rewrite conduct_research_blank by done.
    intros [= <- <- <-]. left. split_and!; try done. by eexists.
  - intros [= <- <- <-]. left. split_and!; try done. by eexists.
  - subst run env kwargs.
    rewrite conduct_research_dispatched by done. cbn zeta.
    destruct (engine _ _) as [result|e].
    + destruct (extract_results repr_str result) as [triple|e] eqn:Hx.
      * intros [= ->]. right. exists result. split_and!; try done.
        by eapply extract_results_status.
      * intros [= <- <- <-]. left. split_and!; try done. by eexists.
    + destruct (derives_Exception (exc_class e)); [|done].
      intros [= <- <- <-]. left. split_and!; try done. by eexists.
Qed.

(** X15: a request with a non-blank query first logs, at level INFO, the
    first 50 characters of the query between "Starting research: " and an
    ellipsis, which is a message of at most 72 characters. *)
Theorem start_record_holds_50_characters :
  ~ blank query ->
  exists rest,
    log_records run.2
    = log_records w
      ++ (INFO, lit "Starting research: " ++ take 50 query ++ lit "...")
         :: rest
    /\ (length (lit "Starting research: " ++ take 50 query ++ lit "...")
        <= 72)%nat.
Proof.
  intros Hq.
  assert (Hlen : (length (lit "Starting research: " ++ take 50 query
                          ++ lit "...") <= 72)%nat).
  { rewrite !length_app, length_take.
    change (length (lit "Starting research: ")) with 19%nat.
    change (length (lit "...")) with 3%nat. lia. }
  destruct (decide (0%N ∈ provider)) as [Hp|Hp].
  { subst run.
    rewrite (conduct_research_refused_provider repr_str read_text engine
               _ _ model max_loops extra_effort minimum_effort
               enable_steering uploaded_files w Hq Hp).
    cbn. eexists. split; [|done]. by rewrite <- !(assoc_L (++)). }
  destruct (decide (0%N ∈ model)) as [Hm|Hm].
  { subst run.
    rewrite (conduct_research_refused_model repr_str read_text engine
               _ _ _ max_loops extra_effort minimum_effort
               enable_steering uploaded_files w Hq Hp Hm).
    cbn. eexists. split; [|done]. by rewrite <- !(assoc_L (++)). }
  subst run. rewrite conduct_research_dispatched by done. cbn zeta.
  destruct (engine _ _) as [result|e].
  - destruct (extract_results repr_str result); cbn;
      eexists; (split; [|done]); by rewrite <- ?(assoc_L (++)).
  - destruct (derives_Exception (exc_class e)); cbn;
      eexists; (split; [|done]); by rewrite <- ?(assoc_L (++)).
Qed.
End Paths.

Lemma other_variables_are_left_alone_witness :
  environ end_to_end_run.2 !! lit "TAVILY_API_KEY" = None.
Proof.
  refine (other_variables_are_left_alone quoted no_such_file sample_engine
            (lit "quantum computing trends") (lit "openai") (lit "o3-mini") 5
            false false false None initial_world (lit "TAVILY_API_KEY") _).
  compute_done.
Defined.

Lemma returned_triple_shape_witness :
  (VStr (lit "Report body") = VStr []
   /\ lit "- https://a.com" ++ [10%N] ++ lit "- https://b.com" = []
   /\ failure_mark
      `prefix_of` (success_mark
                   ++ lit " Research complete! Conducted 5 research loops."))
  \/ (exists result,
         sample_engine
           (session_environ ∅ (lit "openai") (lit "o3-mini") 5)
           (dispatch_kwargs no_such_file (lit "quantum computing trends")
              (lit "openai") (lit "o3-mini") false false false None)
         = Returned result
         /\ extract_results quoted result
            = Returned
                (VStr (lit "Report body"),
                 lit "- https://a.com" ++ [10%N] ++ lit "- https://b.com",
                 success_mark
                 ++ lit " Research complete! Conducted 5 research loops.")
         /\ success_mark
            `prefix_of` (success_mark
                         ++ lit " Research complete! Conducted 5 research loops.")).
Proof.
  refine (returned_triple_shape quoted no_such_file sample_engine
            (lit "quantum computing trends") (lit "openai") (lit "o3-mini") 5
            false false false None initial_world _ _ _ _).
  vm_compute. reflexivity.
Defined.

Lemma start_record_holds_50_characters_witness :
  exists rest,
    log_records
      (sample_run failing_engine
         (lit "a query that is quite a bit longer than fifty characters")
         (lit "openai") (lit "o3-mini") 5 false None).2
    = [] ++ (INFO,
             lit "Starting research: "
             ++ take 50
                  (lit "a query that is quite a bit longer than fifty characters")
             ++ lit "...") :: rest
    /\ (length
          (lit "Starting research: "
           ++ take 50
                (lit "a query that is quite a bit longer than fifty characters")
           ++ lit "...") <= 72)%nat.
Proof.
  refine (start_record_holds_50_characters quoted no_such_file failing_engine
            (lit "a query that is quite a bit longer than fifty characters")
            (lit "openai") (lit "o3-mini") 5 false false false None
            initial_world _).
  compute_done.
Defined.



(** ** What the engine is given, and what follows its return *)



Section Dispatched.
Variable repr_str : pystr -> pystr.
Variable read_text : pystr -> read_failure + pystr.
Variable engine : gmap pystr pystr -> engine_kwargs -> outcome pyval.

Variables query provider model : pystr.
Variable max_loops : Z.
Variables extra_effort minimum_effort enable_steering : bool.
Variable uploaded_files : option (list UploadedFile).
Variable w : world.

Let run : outcome (pyval * pystr * pystr) * world :=
  conduct_research repr_str read_text engine query provider model max_loops
    extra_effort minimum_effort enable_steering uploaded_files w.
Let env : gmap pystr pystr :=
  session_environ (environ w) provider model max_loops.
Let kwargs : engine_kwargs :=
  dispatch_kwargs read_text query provider model extra_effort
    minimum_effort enable_steering uploaded_files.




End Dispatched.





(** ** One request after another *)




(** ** The blocks of the uploaded files *)

Lemma basename_from (acc p : pystr) :
  47%N ∉ acc ->
  let r := foldl (fun acc c => if (c =? 47)%N then [] else acc ++ [c]) acc p in
  (47%N ∉ r) /\ r `suffix_of` acc ++ p.
Proof.
  revert acc. induction p as [|c p IH]; intros acc Hacc; cbn.
  - by rewrite app_nil_r.
  - destruct (N.eqb_spec c 47) as [->|Hc].
    + destruct (IH [] (not_elem_of_nil _)) as [Hr Hs]. split; [done|].
      cbn in Hs. by apply suffix_app_r, suffix_cons_r.
    + destruct (IH (acc ++ [c])) as [Hr Hs].
      { rewrite elem_of_app, list_elem_of_singleton. by intros [|]. }
      split; [done|]. by rewrite <- (assoc_L (++)) in Hs.
Qed.

(** X7: every block the loop over the uploads returns is that of an
    uploaded file that was read, and is headed by the file's base name
    alone: the name in the header holds no slash and is the end of the
    file's path, so that the directory of the upload is not passed on; the
    text of the file follows unchanged. *)
Theorem document_block_names_the_file_only
    (read_text : pystr -> read_failure + pystr)
    (uploaded_files : list UploadedFile) (w : world) (block : pystr) :
  (exists file_contents w',
      read_uploaded_files read_text uploaded_files [] w
      = (Returned file_contents, w')
      /\ block ∈ file_contents) ->
  exists (f : UploadedFile) (base content : pystr),
    f ∈ uploaded_files
    /\ read_text (name f) = inr content
    /\ block = lit "=== File: " ++ base ++ lit " ===" ++ [10%N] ++ content
               ++ [10%N]
    /\ (47%N ∉ base)
    /\ base `suffix_of` name f.
Proof.
  intros (file_contents & w' & Hrun & Hin).
  rewrite read_uploaded_files_from in Hrun. injection Hrun as <- _.
  cbn in Hin. apply list_elem_of_omap in Hin as (f & Hf & Hblock).
  unfold document_block in Hblock.
  destruct (read_text (name f)) as [|content] eqn:Hread; [done|].
  injection Hblock as <-.
  exists f, (basename (name f)), content.
  destruct (basename_from [] (name f) (not_elem_of_nil _)) as [Hr Hs].
  by split_and!.
Qed.

Lemma document_block_names_the_file_only_witness :
  exists f base content,
    f ∈ sample_uploads
    /\ sample_files (name f) = inr content
    /\ lit "=== File: c.txt ===" ++ [10%N] ++ lit "gamma" ++ [10%N]
       = lit "=== File: " ++ base ++ lit " ===" ++ [10%N] ++ content
         ++ [10%N]
    /\ (47%N ∉ base)
    /\ base `suffix_of` name f.
Proof.
  apply (document_block_names_the_file_only sample_files sample_uploads
           initial_world).
  eexists _, _. split; [vm_compute; reflexivity|].
  apply list_elem_of_further, list_elem_of_here.
Defined.


(** ** More on formatting *)



(** ** More on the catalog *)

(** X12: the model lookup returns [["default"]] for the strings that are
    no key of the catalog and for no others: no provider of the catalog
    has that list. *)
Theorem default_models_mean_unknown_provider (provider : pystr) :
  get_models_for_provider provider = [lit "default"]
  <-> provider ∉ (PROVIDERS.*1).
Proof.
  split; [|apply dict_get_absent].
  intros Hdefault Hin.
  apply list_elem_of_fmap in Hin as [[k models] [-> Hin]].
  unfold get_models_for_provider in Hdefault.
  rewrite (dict_get_present _ _ models) in Hdefault by (done || compute_done).
  subst models. unfold PROVIDERS in Hin.
  repeat (apply elem_of_cons in Hin as [Heq|Hin];
          [apply (f_equal snd) in Heq; by vm_compute in Heq|]).
  by apply elem_of_nil in Hin.
Qed.

(** ** The report document *)

(** X16: the document keeps its three fields apart as long as their
    lengths are known: two documents that are equal, with reports of one
    length and sources of one length, come from the same report, sources
    and status. *)
Theorem format_research_output_fields
    (report sources status report' sources' status' : pystr) :
  format_research_output report sources status
  = format_research_output report' sources' status' ->
  length report = length report' ->
  length sources = length sources' ->
  report = report' /\ sources = sources' /\ status = status'.
Proof.
  unfold format_research_output. intros Heq Hreport Hsources.
  apply app_inv_head, app_inv_head in Heq.
  apply app_inj_1 in Heq as [-> Heq]; [|done].
  do 5 apply app_inv_head in Heq.
  apply app_inj_1 in Heq as [-> Heq]; [|done].
  do 4 apply app_inv_head in Heq.
  apply app_inv_tail in Heq. by subst.
Qed.

Lemma format_research_output_fields_witness :
  format_research_output (lit "Report body") (lit "- https://a.com")
    (lit "done")
  = lit "# Research Report" ++ [10%N; 10%N] ++ lit "Report body"
    ++ [10%N; 10%N] ++ lit "---" ++ [10%N; 10%N] ++ lit "## Sources"
    ++ [10%N] ++ lit "- https://a.com" ++ [10%N; 10%N] ++ lit "---"
    ++ [10%N; 10%N] ++ lit "**Status**: done" ++ [10%N]
  /\ (lit "Report body" = lit "Report body"
      /\ lit "- https://a.com" = lit "- https://a.com"
      /\ lit "done" = lit "done").
Proof.
  split; [vm_compute; reflexivity|].
  apply (format_research_output_fields (lit "Report body")
           (lit "- https://a.com") (lit "done") (lit "Report body")
           (lit "- https://a.com") (lit "done")); reflexivity.
Defined.

(** ** The start of the application *)

Lemma dict_lookup_absent {V : Type} (entries : list (pystr * V))
    (key : pystr) :
  key ∉ (entries.*1) -> dict_lookup entries key = None.
Proof.
  induction entries as [|[k v] rest IH]; [done|].
  cbn. rewrite not_elem_of_cons. intros [Hne Hrest].
  rewrite bool_decide_eq_false_2 by done. by apply IH.
Qed.

Lemma api_key_warnings_length (provider : pystr) (env : gmap pystr pystr) :
  length (api_key_warnings provider env)
  = ((if environ_missing env (lit "TAVILY_API_KEY") then 1 else 0)
     + match dict_lookup provider_key_map provider with
       | Some key_name => if environ_missing env key_name then 1 else 0
       | None => 0
       end)%nat.
Proof.
  unfold api_key_warnings. rewrite length_app.
  destruct (environ_missing env (lit "TAVILY_API_KEY"));
    destruct (dict_lookup provider_key_map provider) as [key_name|];
    try destruct (environ_missing env key_name); reflexivity.
Qed.

(** X17: [main] prints ten lines and its warnings, of which there are at
    most two; it prints no warning exactly when [TAVILY_API_KEY] is set to
    a non-empty value and the provider either has no entry in
    [provider_key_map] or has its variable set to a non-empty value. *)
Theorem main_prints_no_warning_iff (provider model : pystr) (max_loops : Z)
    (env : gmap pystr pystr) :
  (10 <= length (main provider model max_loops env) <= 12)%nat
  /\ (length (main provider model max_loops env) = 10%nat
      <-> environ_missing env (lit "TAVILY_API_KEY") = false
          /\ forall key_name,
               dict_lookup provider_key_map provider = Some key_name ->
               environ_missing env key_name = false).
Proof.
  unfold main. rewrite !length_app, api_key_warnings_length. cbn [length].
  destruct (environ_missing env (lit "TAVILY_API_KEY"));
    destruct (dict_lookup provider_key_map provider) as [key_name|];
    try destruct (environ_missing env key_name) eqn:Hkey;
    (split; [lia|]); split;
    try (intros Hlen; exfalso; lia);
    try (by intros [[=] _]);
    try (intros _; split; [done|]; by intros k [= <-]);
    try (intros _; split; [done|]; by intros k [=]);
    try done.
  intros [_ Hall]. specialize (Hall key_name eq_refl). congruence.
Qed.

Lemma api_key_warnings_known (provider key_name : pystr)
    (env : gmap pystr pystr) :
  dict_lookup provider_key_map provider = Some key_name ->
  tavily_warning <> provider_warning key_name provider ->
  provider_warning key_name provider ∈ api_key_warnings provider env
  <-> environ_missing env key_name = true.
Proof.
  intros Hkey Hne. unfold api_key_warnings. rewrite Hkey.
  destruct (environ_missing env (lit "TAVILY_API_KEY"));
    destruct (environ_missing env key_name); cbn;
    rewrite ?elem_of_cons, ?elem_of_nil; split; try done.
  - by intros _; right; left.
  - by intros [Heq|[]].
  - by intros _; left.
Qed.

(** X18: every provider of the catalog has its variable in
    [provider_key_map], and [main] warns about that provider exactly when
    the variable is missing or empty; a provider outside of the catalog is
    not checked, whatever the environment holds: the only warning left is
    the one about [TAVILY_API_KEY]. *)
Theorem provider_key_is_checked (provider : pystr) (env : gmap pystr pystr) :
  (provider ∈ (PROVIDERS.*1) ->
   exists key_name,
     dict_lookup provider_key_map provider = Some key_name
     /\ (provider_warning key_name provider ∈ api_key_warnings provider env
         <-> environ_missing env key_name = true))
  /\ (provider ∉ (PROVIDERS.*1) ->
      api_key_warnings provider env
      = if environ_missing env (lit "TAVILY_API_KEY")
        then [tavily_warning] else []).
Proof.
  split.
  - intros Hin. change (PROVIDERS.*1) with (provider_key_map.*1) in Hin.
    unfold provider_key_map in Hin. cbn in Hin.
    repeat (apply elem_of_cons in Hin as [->|Hin];
            [ eexists; split; [reflexivity|];
              apply api_key_warnings_known; [reflexivity | compute_done]
            | ]).
    by apply elem_of_nil in Hin.
  - intros Hout. unfold api_key_warnings.
    rewrite dict_lookup_absent by done. by rewrite app_nil_r.
Qed.

Lemma provider_key_is_checked_witness :
  (exists key_name,
      dict_lookup provider_key_map (lit "groq") = Some key_name
      /\ (provider_warning key_name (lit "groq")
          ∈ api_key_warnings (lit "groq") ∅
          <-> environ_missing ∅ key_name = true))
  /\ api_key_warnings (lit "ollama") ∅
     = if environ_missing ∅ (lit "TAVILY_API_KEY")
       then [tavily_warning] else [].
Proof.
  split.
  - apply (proj1 (provider_key_is_checked (lit "groq") ∅)). compute_done.
  - apply (proj2 (provider_key_is_checked (lit "ollama") ∅)). compute_done.
Defined.

Lemma main_prints_no_warning_iff_witness :
  length
    (main (lit "openai") (lit "o3-mini") 10
       (<[lit "OPENAI_API_KEY" := lit "sk"]>
          (<[lit "TAVILY_API_KEY" := lit "tv"]> ∅)))
  = 10%nat.
Proof.
  apply (proj2 (main_prints_no_warning_iff (lit "openai") (lit "o3-mini") 10
                  (<[lit "OPENAI_API_KEY" := lit "sk"]>
                     (<[lit "TAVILY_API_KEY" := lit "tv"]> ∅)))).
  split; [compute_done|].
  intros key_name Hkey. vm_compute in Hkey. injection Hkey as <-.
  compute_done.
Defined.

(** X19: when neither [LLM_PROVIDER] nor [LLM_MODEL] is set, both
    dropdowns start on a value that is among their choices; when
    [LLM_PROVIDER] names another provider of the catalog than "openai" and
    [LLM_MODEL] is not set, the model dropdown starts on "o3-mini", which
    is not among its choices. *)
Theorem model_dropdown_defaults (env : gmap pystr pystr) :
  (env !! lit "LLM_PROVIDER" = None -> env !! lit "LLM_MODEL" = None ->
   value (provider_dropdown env) ∈ choices (provider_dropdown env)
   /\ value (model_dropdown env) ∈ choices (model_dropdown env))
  /\ (forall provider,
        provider ∈ (PROVIDERS.*1) -> provider <> lit "openai" ->
        env !! lit "LLM_PROVIDER" = Some provider ->
        env !! lit "LLM_MODEL" = None ->
        value (model_dropdown env) = lit "o3-mini"
        /\ (value (model_dropdown env) ∉ choices (model_dropdown env))).
Proof.
  unfold provider_dropdown, model_dropdown, LLM_PROVIDER, LLM_MODEL,
    environ_get. cbn [value choices].
  split.
  - intros -> ->. split; compute_done.
  - intros provider Hin Hne -> ->. split; [done|].
    unfold PROVIDERS in Hin. cbn in Hin.
    repeat (apply elem_of_cons in Hin as [->|Hin];
            [first [done | compute_done]|]).
    by apply elem_of_nil in Hin.
Qed.

Lemma model_dropdown_defaults_witness :
  (value (provider_dropdown ∅) ∈ choices (provider_dropdown ∅)
   /\ value (model_dropdown ∅) ∈ choices (model_dropdown ∅))
  /\ (value (model_dropdown (<[lit "LLM_PROVIDER" := lit "groq"]> ∅))
      = lit "o3-mini"
      /\ (value (model_dropdown (<[lit "LLM_PROVIDER" := lit "groq"]> ∅))
          ∉ choices (model_dropdown (<[lit "LLM_PROVIDER" := lit "groq"]> ∅)))).
Proof.
  split.
  - apply (proj1 (model_dropdown_defaults ∅)); compute_done.
  - apply (proj2 (model_dropdown_defaults
                    (<[lit "LLM_PROVIDER" := lit "groq"]> ∅)) (lit "groq"));
      compute_done.
Defined.
